(** * Community dashboard: the analytical core of [dashboard.py]

    A shallow embedding of the data loader ([load_data]), the retention
    classifier ([get_retention_group]), the two sidebar filters
    ([filtered_workspace_df], [filtered_member_df]), the date-range
    normalisation and the metrics calculator ([calculate_metrics]).

    Numbers held in a pandas column are modelled by [number]: a rational for
    a finite value, or [NaN] for pandas' missing value.  The aggregations
    follow pandas' defaults: [sum], [mean] and [max] skip [NaN]; the sum of
    nothing is 0, the mean and the maximum of nothing are [NaN]. *)

From Stdlib Require Import List ZArith QArith Qminmax String Ascii Bool Lia.
From Stdlib Require Import Permutation Sorted.
Import ListNotations.

Local Open Scope string_scope.
Local Open Scope Z_scope.
Local Open Scope list_scope.

(* ================================================================== *)
(** ** Numbers of a column *)

Inductive number : Type :=
| Num (q : Q)
| NaN.

(** [x <= k], [x >= k] and [x > k] as Python evaluates them on a float:
    every comparison with [NaN] is false. *)
Definition num_leb (x : number) (k : Q) : bool :=
  match x with
  | Num q => Qle_bool q k
  | NaN => false
  end.

Definition num_geb (x : number) (k : Q) : bool :=
  match x with
  | Num q => Qle_bool k q
  | NaN => false
  end.

Definition num_gtb (x : number) (k : Q) : bool :=
  match x with
  | Num q => negb (Qle_bool q k)
  | NaN => false
  end.

Definition num_div (x y : number) : number :=
  match x, y with
  | Num a, Num b => Num (a / b)
  | _, _ => NaN
  end.

Definition num_mul (x y : number) : number :=
  match x, y with
  | Num a, Num b => Num (a * b)
  | _, _ => NaN
  end.

Definition of_nat (n : nat) : number := Num (inject_Z (Z.of_nat n)).

(** [Series.fillna(0)] on one value. *)
Definition fillna0 (x : number) : number :=
  match x with
  | Num q => Num q
  | NaN => Num 0
  end.

(** The values of a series that are not missing. *)
Fixpoint dropna (xs : list number) : list Q :=
  match xs with
  | [] => []
  | Num q :: r => q :: dropna r
  | NaN :: r => dropna r
  end.

Definition Qsum (qs : list Q) : Q := fold_right Qplus 0%Q qs.

(** [Series.sum()]. *)
Definition series_sum (xs : list number) : number := Num (Qsum (dropna xs)).

(** [Series.mean()]. *)
Definition series_mean (xs : list number) : number :=
  match dropna xs with
  | [] => NaN
  | q :: r => Num (Qsum (q :: r) / inject_Z (Z.of_nat (List.length (q :: r))))
  end.

(** [Series.max()]. *)
Definition series_max (xs : list number) : number :=
  match dropna xs with
  | [] => NaN
  | q :: r => Num (fold_left Qmax r q)
  end.

(* ================================================================== *)
(** ** Retention classifier *)

Definition get_retention_group (days : number) : string :=
  if num_leb days 5 then "0-5 days"
  else if num_leb days 15 then "6-15 days"
  else if num_leb days 30 then "16-30 days"
  else "30+ days".

(* ================================================================== *)
(** ** The frames as [pd.read_csv] hands them over

    A column read from a CSV file is either numeric (every value a number or
    missing) or of dtype [object] (every value a string or missing).  The
    member frame carries the dtype of its two numeric columns, since
    [load_data] tests the one of [messages_posted]. *)

Inductive dtype : Type := numeric | object.

Definition cell (d : dtype) : Type :=
  match d with
  | numeric => number
  | object => option string
  end.

Record RawMember (dm dd : dtype) : Type := mkRawMember {
  raw_user_id : string;
  raw_name : option string;
  raw_display_name : option string;
  raw_messages_posted : cell dm;
  raw_days_active : cell dd;
  raw_high_engagement : number
}.

Arguments mkRawMember {dm dd}.
Arguments raw_user_id {dm dd}.
Arguments raw_name {dm dd}.
Arguments raw_display_name {dm dd}.
Arguments raw_messages_posted {dm dd}.
Arguments raw_days_active {dm dd}.
Arguments raw_high_engagement {dm dd}.

Module Member.
Record t : Type := mk {
  user_id : string;
  display_name : option string;
  messages_posted : number;
  days_active : number;
  high_engagement : number;
  retention_group : string
}.
End Member.

Module Channel.
Record t : Type := mk {
  channel : string;
  messages_posted : number;
  total_membership : number
}.
End Channel.

(** A workspace row after [pd.to_datetime]: [date] is the timestamp in
    nanoseconds since the epoch. *)
Module Workspace.
Record t : Type := mk {
  date : Z;
  daily_active_people : number;
  messages_posted : number;
  engagement_ratio : number;
  total_enabled_members : number
}.
End Workspace.

(* ================================================================== *)
(** ** load_data *)

(** [Series.astype(str)] on an object cell: a missing value prints as "nan". *)
Definition astype_str (c : option string) : string :=
  match c with
  | Some s => s
  | None => "nan"
  end.

(** [Series.str.replace(',', '')]. *)
Fixpoint str_replace_comma (s : string) : string :=
  match s with
  | EmptyString => EmptyString
  | String c r =>
      if Ascii.eqb c "," then str_replace_comma r
      else String c (str_replace_comma r)
  end.

(** Lines 88-89: only an object column is rewritten. *)
Definition strip_messages (dm : dtype) : cell dm -> cell dm :=
  match dm with
  | object => fun c => Some (str_replace_comma (astype_str c))
  | numeric => fun c => c
  end.

(** [pd.to_numeric(..., errors='coerce')] on one cell; [parse] is pandas'
    reading of one string, [NaN] when the string is not a number. *)
Definition to_numeric (parse : string -> number) (d : dtype) : cell d -> number :=
  match d with
  | object => fun c => match c with Some s => parse s | None => NaN end
  | numeric => fun c => c
  end.

Definition coerce_messages (parse : string -> number) {dm dd : dtype}
    (r : RawMember dm dd) : number :=
  to_numeric parse dm (strip_messages dm (raw_messages_posted r)).

Definition coerce_days (parse : string -> number) {dm dd : dtype}
    (r : RawMember dm dd) : number :=
  to_numeric parse dd (raw_days_active r).

(** [Series.fillna(other)] on one object cell. *)
Definition fillna (c other : option string) : option string :=
  match c with
  | Some s => Some s
  | None => other
  end.

Definition resolve_display_name (display_name name : option string) : option string :=
  fillna (fillna display_name name) (Some "Unknown Member").

Definition load_member (parse : string -> number) {dm dd : dtype}
    (r : RawMember dm dd) : Member.t :=
  let messages_posted := fillna0 (coerce_messages parse r) in
  let days_active := fillna0 (coerce_days parse r) in
  Member.mk (raw_user_id r)
            (resolve_display_name (raw_display_name r) (raw_name r))
            messages_posted
            days_active
            (raw_high_engagement r)
            (get_retention_group days_active).

(** The channel frame is returned as it was read; the workspace frame only
    has its dates parsed, which [Workspace.t] already records. *)
Definition load_data (parse : string -> number) {dm dd : dtype}
    (member_df : list (RawMember dm dd)) (channel_df : list Channel.t)
    (workspace_df : list Workspace.t)
  : list Member.t * list Channel.t * list Workspace.t :=
  (map (load_member parse) member_df, channel_df, workspace_df).

(** The chain of the specification: the first value that is present and not
    the empty string, the literal when there is none. *)
Fixpoint first_non_empty (chain : list (option string)) (literal : string) : string :=
  match chain with
  | [] => literal
  | Some (String c s) :: _ => String c s
  | _ :: rest => first_non_empty rest literal
  end.

(** A reader of signed decimal integers, the instance of [parse] used in the
    examples.  pandas reads more (fractions, exponents); the theorems below
    hold for every [parse]. *)
Definition digit_of (c : ascii) : option Z :=
  let n := Z.of_nat (nat_of_ascii c) in
  if (48 <=? n) && (n <=? 57) then Some (n - 48) else None.

Fixpoint parse_digits (acc : Z) (s : string) : option Z :=
  match s with
  | EmptyString => Some acc
  | String c r =>
      match digit_of c with
      | Some d => parse_digits (10 * acc + d) r
      | None => None
      end
  end.

Definition parse_decimal (s : string) : number :=
  match s with
  | EmptyString => NaN
  | String "-" (String c r) =>
      match parse_digits 0 (String c r) with
      | Some z => Num (inject_Z (- z))
      | None => NaN
      end
  | String c r =>
      match parse_digits 0 (String c r) with
      | Some z => Num (inject_Z z)
      | None => NaN
      end
  end.

(* ================================================================== *)
(** ** Sidebar filters *)

Definition ns_per_day : Z := 86400000000000.

(** [Series.dt.date]: the calendar day of a timestamp, as a day number. *)
Definition dt_date (ts : Z) : Z := ts / ns_per_day.

(** The value of [st.sidebar.date_input]: a sequence of dates or one date. *)
Inductive DateInput : Type :=
| DateSeq (ds : list Z)
| DateSingle (d : Z).

(** [workspace_df['date'].min().date()] and [.max().date()]; [None] on an
    empty frame, where pandas has no timestamp to give. *)
Definition min_date (workspace_df : list Workspace.t) : option Z :=
  match map Workspace.date workspace_df with
  | [] => None
  | t :: ts => Some (dt_date (fold_left Z.min ts t))
  end.

Definition max_date (workspace_df : list Workspace.t) : option Z :=
  match map Workspace.date workspace_df with
  | [] => None
  | t :: ts => Some (dt_date (fold_left Z.max ts t))
  end.

(** Lines 195-204. *)
Definition normalize_date_range (min_date max_date : Z) (date_range : DateInput)
  : Z * Z :=
  match date_range with
  | DateSeq [start_date; end_date] => (start_date, end_date)
  | DateSeq [d] => (d, d)
  | DateSeq _ => (min_date, max_date)
  | DateSingle d => (d, d)
  end.

Definition mask (start_date end_date : Z) (r : Workspace.t) : bool :=
  (start_date <=? dt_date (Workspace.date r)) &&
  (dt_date (Workspace.date r) <=? end_date).

Fixpoint insert_by_date (r : Workspace.t) (l : list Workspace.t) : list Workspace.t :=
  match l with
  | [] => [r]
  | x :: t =>
      if Workspace.date r <=? Workspace.date x then r :: x :: t
      else x :: insert_by_date r t
  end.

(** [DataFrame.sort_values('date')]. *)
Definition sort_values_date (l : list Workspace.t) : list Workspace.t :=
  fold_right insert_by_date [] l.

(** Lines 206-207. *)
Definition filtered_workspace_df (workspace_df : list Workspace.t)
    (start_date end_date : Z) : list Workspace.t :=
  sort_values_date (filter (mask start_date end_date) workspace_df).

(** Line 213. *)
Definition filtered_member_df (member_df : list Member.t) (min_messages : Z)
  : list Member.t :=
  filter (fun m => num_geb (Member.messages_posted m) (inject_Z min_messages)) member_df.

(* ================================================================== *)
(** ** calculate_metrics *)

Record Metrics : Type := mkMetrics {
  total_members : nat;
  total_member_messages : number;
  avg_messages_per_member : number;
  avg_days_active : number;
  high_engagement_count : number;
  pct_high_engagement : number;
  members_with_messages : nat;
  pct_members_with_messages : number;
  total_channels : nat;
  total_channel_messages : number;
  avg_messages_per_channel : number;
  total_channel_membership : number;
  peak_daily_active : number;
  peak_messages_per_day : number;
  avg_daily_active : number;
  avg_messages_per_day : number;
  total_messages_period : number;
  avg_engagement_ratio : number;
  latest_enabled_members : number
}.

(** [len(col.unique())]. *)
Definition count_unique (ids : list string) : nat :=
  List.length (nodup string_dec ids).

(** [col.iloc[-1]]: [None] stands for the IndexError on an empty column. *)
Fixpoint iloc_last (col : list number) : option number :=
  match col with
  | [] => None
  | [x] => Some x
  | _ :: r => iloc_last r
  end.

(** The result is [None] when a step of the body raises. *)
Definition calculate_metrics (member_df : list Member.t) (channel_df : list Channel.t)
    (workspace_df filtered_workspace_df : list Workspace.t) : option Metrics :=
  (* member metrics *)
  let total_members := count_unique (map Member.user_id member_df) in
  let total_member_messages := series_sum (map Member.messages_posted member_df) in
  let avg_messages_per_member :=
    if (0 <? total_members)%nat
    then num_div total_member_messages (of_nat total_members) else Num 0 in
  let avg_days_active := series_mean (map Member.days_active member_df) in
  let high_engagement_count := series_sum (map Member.high_engagement member_df) in
  let pct_high_engagement :=
    if (0 <? total_members)%nat
    then num_mul (num_div high_engagement_count (of_nat total_members)) (Num 100)
    else Num 0 in
  let members_with_messages :=
    List.length (filter (fun m => num_gtb (Member.messages_posted m) 0) member_df) in
  let pct_members_with_messages :=
    if (0 <? total_members)%nat
    then num_mul (num_div (of_nat members_with_messages) (of_nat total_members)) (Num 100)
    else Num 0 in
  (* channel metrics *)
  let total_channels := count_unique (map Channel.channel channel_df) in
  let total_channel_messages := series_sum (map Channel.messages_posted channel_df) in
  let avg_messages_per_channel :=
    if (0 <? total_channels)%nat
    then num_div total_channel_messages (of_nat total_channels) else Num 0 in
  let total_channel_membership := series_sum (map Channel.total_membership channel_df) in
  (* workspace metrics, over the filtered date range *)
  let peak_daily_active :=
    series_max (map Workspace.daily_active_people filtered_workspace_df) in
  let peak_messages_per_day :=
    series_max (map Workspace.messages_posted filtered_workspace_df) in
  let avg_daily_active :=
    series_mean (map Workspace.daily_active_people filtered_workspace_df) in
  let avg_messages_per_day :=
    series_mean (map Workspace.messages_posted filtered_workspace_df) in
  let total_messages_period :=
    series_sum (map Workspace.messages_posted filtered_workspace_df) in
  let avg_engagement_ratio :=
    series_mean (map Workspace.engagement_ratio filtered_workspace_df) in
  match
    (if (0 <? List.length filtered_workspace_df)%nat
     then iloc_last (map Workspace.total_enabled_members filtered_workspace_df)
     else Some (Num 0))
  with
  | None => None
  | Some latest_enabled_members =>
      Some (mkMetrics total_members total_member_messages avg_messages_per_member
              avg_days_active high_engagement_count pct_high_engagement
              members_with_messages pct_members_with_messages total_channels
              total_channel_messages avg_messages_per_channel
              total_channel_membership peak_daily_active peak_messages_per_day
              avg_daily_active avg_messages_per_day total_messages_period
              avg_engagement_ratio latest_enabled_members)
  end.

(** Lines 184-216: the script from the loaded frames and the two widget
    values to the metrics; [None] when there is no date to bound the range
    or a step raises. *)
Definition dashboard_metrics (member_df : list Member.t) (channel_df : list Channel.t)
    (workspace_df : list Workspace.t) (date_range : DateInput) (min_messages : Z)
  : option Metrics :=
  match min_date workspace_df, max_date workspace_df with
  | Some mn, Some mx =>
      let '(start_date, end_date) := normalize_date_range mn mx date_range in
      calculate_metrics (filtered_member_df member_df min_messages) channel_df
        workspace_df (filtered_workspace_df workspace_df start_date end_date)
  | _, _ => None
  end.

(* ================================================================== *)
(** ** Predicates of the statements *)

(** Ascending order of the timestamps, and of the calendar days. *)
Definition ts_le (a b : Workspace.t) : Prop := Workspace.date a <= Workspace.date b.

Definition day_le (a b : Workspace.t) : Prop :=
  dt_date (Workspace.date a) <= dt_date (Workspace.date b).

(** A value that is present and at least 0. *)
Definition non_negative (x : number) : Prop :=
  match x with
  | Num q => (0 <= q)%Q
  | NaN => False
  end.

(** A value that is missing or at least 0. *)
Definition missing_or_non_negative (x : number) : Prop :=
  match x with
  | Num q => (0 <= q)%Q
  | NaN => True
  end.

Definition is_comma (c : ascii) : bool := Ascii.eqb c ",".

(* ================================================================== *)
(** ** Sample frames *)

Definition day_ts (day : Z) : Z := day * ns_per_day.

(** Two snapshots, of 2024-01-01 and 2024-01-03 (days 19723 and 19725). *)
Definition sample_workspace_df : list Workspace.t :=
  [ Workspace.mk (day_ts 19723) (Num 10) (Num 100) (Num (1 # 5)) (Num 50);
    Workspace.mk (day_ts 19725) (Num 12) (Num 80) (Num (6 # 25)) (Num 50) ].

Definition sample_channel_df : list Channel.t :=
  [ Channel.mk "general" (Num 120) (Num 40);
    Channel.mk "random" (Num 60) (Num 25) ].

(** A member export whose numeric columns were read as text. *)
Definition sample_member_df : list (RawMember object object) :=
  [ @mkRawMember object object "U1" (Some "ann") (Some "Ann") (Some "1,200") (Some "3") (Num 1);
    @mkRawMember object object "U2" (Some "bob") None (Some "0") (Some "40") (Num 0);
    @mkRawMember object object "U3" None None (Some "many") None (Num 0) ].

(** A member export read as numbers, one row of which is negative. *)
Definition negative_member_df : list (RawMember numeric numeric) :=
  [ @mkRawMember numeric numeric "U1" (Some "ann") (Some "Ann") (Num 12) (Num 3) (Num 1);
    @mkRawMember numeric numeric "U2" (Some "bob") None (Num (-5)) (Num (-3)) (Num 0) ].

(** A row whose day count carries a grouping separator. *)
Definition separator_member : RawMember object object :=
  @mkRawMember object object "U1" (Some "ann") (Some "Ann") (Some "1,200") (Some "1,200") (Num 1).

(* ================================================================== *)
(** ** Theme toggle (lines 20-38) *)

(** Lines 20-21: [dark_mode] is set to [False] when the session has none. *)
Definition init_dark_mode (session : option bool) : bool :=
  match session with
  | Some dark_mode => dark_mode
  | None => false
  end.

Definition toggle_theme (dark_mode : bool) : bool := negb dark_mode.

Record Palette : Type := mkPalette {
  bg_color : string;
  text_color : string;
  card_bg : string;
  metric_val_color : string
}.

Definition palette (dark_mode : bool) : Palette :=
  if dark_mode
  then mkPalette "#0e1117" "white" "#262730" "#f0f2f6"
  else mkPalette "#ffffff" "black" "#f0f2f6" "#31333F".

(* ================================================================== *)
(** ** The slider bound and the KPI conversions *)

(** Python's [int(x)] on a float: truncation towards zero; [None] stands for
    the ValueError on [NaN]. *)
Definition py_int (x : number) : option Z :=
  match x with
  | Num q => Some (Z.quot (Qnum q) (Zpos (Qden q)))
  | NaN => None
  end.

(** Line 212: the upper end of the slider,
    [int(member_df['messages_posted'].max())]. *)
Definition slider_max (member_df : list Member.t) : option Z :=
  py_int (series_max (map Member.messages_posted member_df)).

(* ================================================================== *)
(** ** Tables behind the charts *)

(** A stable insertion sort: [before x y] tells that [x] may stand before
    [y]; rows that tie keep the order of the frame. *)
Fixpoint insert_by {A : Type} (before : A -> A -> bool) (x : A) (l : list A) : list A :=
  match l with
  | [] => [x]
  | y :: t => if before x y then x :: y :: t else y :: insert_by before x t
  end.

Definition sort_by {A : Type} (before : A -> A -> bool) (l : list A) : list A :=
  fold_right (insert_by before) [] l.

(** Descending order of a column, missing values last. *)
Definition num_desc (a b : number) : bool :=
  match b with
  | NaN => true
  | Num y => match a with
             | Num x => Qle_bool y x
             | NaN => false
             end
  end.

(** [DataFrame.nlargest(n, column)]: the first [n] rows of the frame sorted
    by the column in descending order. *)
Definition nlargest {A : Type} (n : nat) (key : A -> number) (df : list A) : list A :=
  firstn n (sort_by (fun a b => num_desc (key a) (key b)) df).

(** Line 349. *)
Definition top_members (filtered_member_df : list Member.t)
  : list (option string * number * number) :=
  map (fun m => (Member.display_name m, Member.messages_posted m, Member.days_active m))
      (nlargest 20 Member.messages_posted filtered_member_df).

(** [Series.unique()]: the values in the order of their first appearance. *)
Fixpoint unique (col : list string) : list string :=
  match col with
  | [] => []
  | x :: r => x :: remove string_dec x (unique r)
  end.

(** [Series.value_counts()]: every value with the number of its rows, the
    most frequent first. *)
Definition value_counts (col : list string) : list (string * nat) :=
  sort_by (fun a b => Nat.leb (snd b) (snd a))
          (map (fun v => (v, count_occ string_dec col v)) (unique col)).

(** Line 277. *)
Definition retention_counts (filtered_member_df : list Member.t) : list (string * nat) :=
  value_counts (map Member.retention_group filtered_member_df).

Definition retention_groups : list string :=
  ["0-5 days"; "6-15 days"; "16-30 days"; "30+ days"].

(** Equality of two column values as numbers. *)
Definition num_eq (x y : number) : Prop :=
  match x, y with
  | Num a, Num b => (a == b)%Q
  | NaN, NaN => True
  | _, _ => False
  end.

(** A value at least 0 and at most 100. *)
Definition is_percentage (x : number) : Prop :=
  match x with
  | Num q => (0 <= q /\ q <= 100)%Q
  | NaN => False
  end.

(** The metrics that are computed from the member frame, from the channel
    frame and from the filtered workspace view. *)
Definition member_metrics (m : Metrics) :=
  (total_members m, total_member_messages m, avg_messages_per_member m,
   avg_days_active m, high_engagement_count m, pct_high_engagement m,
   members_with_messages m, pct_members_with_messages m).

Definition channel_metrics (m : Metrics) :=
  (total_channels m, total_channel_messages m, avg_messages_per_channel m,
   total_channel_membership m).

Definition workspace_metrics (m : Metrics) :=
  (peak_daily_active m, peak_messages_per_day m, avg_daily_active m,
   avg_messages_per_day m, total_messages_period m, avg_engagement_ratio m,
   latest_enabled_members m).

(** A loaded member frame with the counts 1200, 0 and 0. *)
Definition sample_members : list Member.t :=
  map (load_member parse_decimal) sample_member_df.

(* ================================================================== *)
(** ** Theorems *)

(** C2: for a non-negative integer [n] the classifier answers one of the four
    buckets, and which one is decided by the inclusive upper bounds 5, 15
    and 30: the four ranges cover [0, oo) and do not overlap. *)
Theorem get_retention_group_partition (n : Z) (H : 0 <= n) :
  In (get_retention_group (Num (inject_Z n)))
     ["0-5 days"; "6-15 days"; "16-30 days"; "30+ days"] /\
  (get_retention_group (Num (inject_Z n)) = "0-5 days" <-> 0 <= n <= 5) /\
  (get_retention_group (Num (inject_Z n)) = "6-15 days" <-> 6 <= n <= 15) /\
  (get_retention_group (Num (inject_Z n)) = "16-30 days" <-> 16 <= n <= 30) /\
  (get_retention_group (Num (inject_Z n)) = "30+ days" <-> 31 <= n).
Proof.
  unfold get_retention_group, num_leb, Qle_bool; simpl.
  rewrite !Z.mul_1_r.
  destruct (Z.leb_spec n 5); [|destruct (Z.leb_spec n 15); [|destruct (Z.leb_spec n 30)]];
    (split; [simpl; tauto|]);
    repeat split; intros; try lia; try discriminate; try reflexivity.
Qed.

Lemma num_leb_negative (q : Q) : (q < 0)%Q -> num_leb (Num q) 5 = true.
Proof.
  intros H. apply Qle_bool_iff, Qlt_le_weak.
  eapply Qlt_trans; [exact H | reflexivity].
Qed.

(** C10: the classifier is defined on every number, and every input below 0
    lands in the lowest bucket; a negative [days_active] of a numeric column
    passes [load_data] unchanged and is stored with the group "0-5 days". *)
Theorem get_retention_group_negative (q : Q) (H : (q < 0)%Q) :
  get_retention_group (Num q) = "0-5 days" /\
  (forall parse dm (r : RawMember dm numeric),
      raw_days_active r = Num q ->
      Member.days_active (load_member parse r) = Num q /\
      Member.retention_group (load_member parse r) = "0-5 days").
Proof.
  assert (Hg : get_retention_group (Num q) = "0-5 days").
  { unfold get_retention_group. now rewrite (num_leb_negative q H). }
  split; [exact Hg|].
  intros parse dm r Hr. unfold load_member, coerce_days. simpl.
  rewrite Hr. simpl. split; [reflexivity | exact Hg].
Qed.

(* ------------------------------------------------------------------ *)
(** *** Sorting by date *)

Lemma dt_date_mono (s t : Z) : s <= t -> dt_date s <= dt_date t.
Proof.
  intros Hst. unfold dt_date. apply Z.div_le_mono; [reflexivity | exact Hst].
Qed.

Lemma insert_by_date_perm (r : Workspace.t) (l : list Workspace.t) :
  Permutation (insert_by_date r l) (r :: l).
Proof.
  induction l as [|x t IH]; simpl.
  - apply Permutation_refl.
  - destruct (Workspace.date r <=? Workspace.date x).
    + apply Permutation_refl.
    + eapply perm_trans; [apply perm_skip, IH | apply perm_swap].
Qed.

Lemma sort_values_date_perm (l : list Workspace.t) :
  Permutation (sort_values_date l) l.
Proof.
  induction l as [|x t IH]; simpl.
  - constructor.
  - eapply perm_trans; [apply insert_by_date_perm | apply perm_skip, IH].
Qed.

Lemma insert_by_date_sorted (r : Workspace.t) (l : list Workspace.t) :
  StronglySorted ts_le l -> StronglySorted ts_le (insert_by_date r l).
Proof.
  induction l as [|x t IH]; simpl; intros Hs.
  - repeat constructor.
  - inversion Hs as [|? ? Ht Hx]; subst.
    destruct (Z.leb_spec (Workspace.date r) (Workspace.date x)) as [Hle|Hgt].
    + constructor; [exact Hs|].
      constructor; [exact Hle|].
      eapply Forall_impl; [|exact Hx].
      intros y Hy. unfold ts_le in *. lia.
    + constructor; [apply IH, Ht|].
      eapply Permutation_Forall; [apply Permutation_sym, insert_by_date_perm|].
      constructor; [unfold ts_le; lia | exact Hx].
Qed.

Lemma sort_values_date_sorted (l : list Workspace.t) :
  StronglySorted ts_le (sort_values_date l).
Proof.
  induction l as [|x t IH]; simpl.
  - constructor.
  - apply insert_by_date_sorted, IH.
Qed.

Lemma StronglySorted_weaken {A : Type} (R R' : A -> A -> Prop) (l : list A) :
  (forall a b, R a b -> R' a b) -> StronglySorted R l -> StronglySorted R' l.
Proof.
  intros HR. induction 1 as [|a l Hl IH Ha]; constructor.
  - exact IH.
  - eapply Forall_impl; [|exact Ha]. intros b. apply HR.
Qed.

Lemma StronglySorted_last {A : Type} (R : A -> A -> Prop) (init : list A) (x : A) :
  StronglySorted R (init ++ [x]) -> Forall (fun y => R y x) init.
Proof.
  induction init as [|a t IH]; simpl; intros Hs.
  - constructor.
  - inversion Hs as [|? ? Ht Ha]; subst. constructor.
    + rewrite Forall_app in Ha. destruct Ha as [_ Hx]. now inversion Hx.
    + apply IH, Ht.
Qed.

Lemma mask_spec (start_date end_date : Z) (r : Workspace.t) :
  mask start_date end_date r = true <->
  start_date <= dt_date (Workspace.date r) <= end_date.
Proof.
  unfold mask. rewrite andb_true_iff, !Z.leb_le. reflexivity.
Qed.

Lemma filter_none {A : Type} (f : A -> bool) (l : list A) :
  (forall x, In x l -> f x = false) -> filter f l = [].
Proof.
  induction l as [|a t IH]; simpl; intros H; [reflexivity|].
  rewrite (H a (or_introl eq_refl)). apply IH. intros x Hx. apply H. now right.
Qed.

(** C5: the date-range filter returns the rows of the frame whose day lies in
    [[start_date, end_date]], each as often as the frame has it, in ascending
    order of date; it returns the empty frame when no row is in the range. *)
Theorem filtered_workspace_df_spec (workspace_df : list Workspace.t)
    (start_date end_date : Z) :
  Permutation (filtered_workspace_df workspace_df start_date end_date)
              (filter (mask start_date end_date) workspace_df) /\
  (forall r, In r (filtered_workspace_df workspace_df start_date end_date) <->
             In r workspace_df /\
             start_date <= dt_date (Workspace.date r) <= end_date) /\
  StronglySorted ts_le (filtered_workspace_df workspace_df start_date end_date) /\
  StronglySorted day_le (filtered_workspace_df workspace_df start_date end_date) /\
  ((forall r, In r workspace_df ->
              ~ start_date <= dt_date (Workspace.date r) <= end_date) ->
   filtered_workspace_df workspace_df start_date end_date = []).
Proof.
  unfold filtered_workspace_df.
  split; [apply sort_values_date_perm|].
  split.
  { intros r. rewrite <- mask_spec, <- filter_In. split; intros Hr.
    - eapply Permutation_in; [apply sort_values_date_perm | exact Hr].
    - eapply Permutation_in; [apply Permutation_sym, sort_values_date_perm | exact Hr]. }
  split; [apply sort_values_date_sorted|].
  split.
  { eapply StronglySorted_weaken; [|apply sort_values_date_sorted].
    intros a b. apply dt_date_mono. }
  intros Hnone. rewrite filter_none; [reflexivity|].
  intros x Hx. specialize (Hnone x Hx). rewrite <- mask_spec in Hnone.
  now destruct (mask start_date end_date x).
Qed.

(* ------------------------------------------------------------------ *)
(** *** The metrics record *)

Lemma iloc_last_app (col : list number) (x : number) :
  iloc_last (col ++ [x]) = Some x.
Proof.
  induction col as [|a t IH]; simpl; [reflexivity|].
  rewrite IH. destruct (t ++ [x]) eqn:E; [|reflexivity].
  now destruct t.
Qed.

Lemma guarded_last_app (init : list Workspace.t) (r : Workspace.t) :
  (if (0 <? List.length (init ++ [r]))%nat
   then iloc_last (map Workspace.total_enabled_members (init ++ [r]))
   else Some (Num 0)) = Some (Workspace.total_enabled_members r).
Proof.
  rewrite map_app. cbn [map]. rewrite iloc_last_app.
  rewrite length_app. cbn [List.length].
  destruct (Nat.ltb_spec 0 (List.length init + 1)); [reflexivity | lia].
Qed.

Lemma guarded_last_total (fw : list Workspace.t) :
  exists v,
    (if (0 <? List.length fw)%nat
     then iloc_last (map Workspace.total_enabled_members fw)
     else Some (Num 0)) = Some v.
Proof.
  destruct fw as [|a t] using rev_ind.
  - exists (Num 0). reflexivity.
  - eexists. apply guarded_last_app.
Qed.

(** C9: on a filtered workspace view the metrics are computed without error,
    [latest_enabled_members] is 0 when the view is empty, and otherwise it is
    the [total_enabled_members] of the last row of the view, a row that no
    other row of the view is later than. *)
Theorem latest_enabled_members_spec (member_df : list Member.t)
    (channel_df : list Channel.t) (workspace_df : list Workspace.t)
    (start_date end_date : Z) :
  exists m,
    calculate_metrics member_df channel_df workspace_df
      (filtered_workspace_df workspace_df start_date end_date) = Some m /\
    (filtered_workspace_df workspace_df start_date end_date = [] ->
     latest_enabled_members m = Num 0) /\
    (forall init r,
        filtered_workspace_df workspace_df start_date end_date = init ++ [r] ->
        latest_enabled_members m = Workspace.total_enabled_members r /\
        Forall (fun r' => ts_le r' r) init).
Proof.
  pose proof (sort_values_date_sorted
                (filter (mask start_date end_date) workspace_df)) as Hsorted.
  fold (filtered_workspace_df workspace_df start_date end_date) in Hsorted.
  remember (filtered_workspace_df workspace_df start_date end_date) as fw eqn:Efw.
  clear Efw. unfold calculate_metrics.
  destruct fw as [|a t] using rev_ind.
  - simpl. eexists. split; [reflexivity|]. simpl. split; [reflexivity|].
    intros init r E. now destruct init.
  - rewrite guarded_last_app. eexists. split; [reflexivity|]. simpl. split.
    + intros E. now destruct t.
    + intros init r E. apply app_inj_tail in E. destruct E as [-> ->].
      split; [reflexivity|]. apply StronglySorted_last, Hsorted.
Qed.

(** C1: with an empty member frame, channel frame or filtered view the
    guarded ratios and percentages and [latest_enabled_members] are 0, and the
    four means, which the code leaves unguarded, are [NaN]. *)
Theorem calculate_metrics_empty (member_df : list Member.t)
    (channel_df : list Channel.t) (workspace_df fw : list Workspace.t) :
  exists m,
    calculate_metrics member_df channel_df workspace_df fw = Some m /\
    (member_df = [] ->
     avg_messages_per_member m = Num 0 /\ pct_high_engagement m = Num 0 /\
     pct_members_with_messages m = Num 0 /\ avg_days_active m = NaN) /\
    (channel_df = [] -> avg_messages_per_channel m = Num 0) /\
    (fw = [] ->
     latest_enabled_members m = Num 0 /\ avg_daily_active m = NaN /\
     avg_messages_per_day m = NaN /\ avg_engagement_ratio m = NaN).
Proof.
  destruct (guarded_last_total fw) as [v Hv].
  unfold calculate_metrics. rewrite Hv.
  eexists. split; [reflexivity|]. simpl.
  split; [intros ->; repeat split; reflexivity|].
  split; [intros ->; reflexivity|].
  intros ->. simpl in Hv. injection Hv as <-. repeat split; reflexivity.
Qed.

(* ------------------------------------------------------------------ *)
(** *** Date-range normalisation *)

Lemma fold_left_min_spec (ts : list Z) (t : Z) :
  Forall (fun x => fold_left Z.min ts t <= x) (t :: ts) /\
  In (fold_left Z.min ts t) (t :: ts).
Proof.
  revert t. induction ts as [|a r IH]; intros t; simpl.
  - split; [repeat constructor; lia | now left].
  - destruct (IH (Z.min t a)) as [Hall Hin].
    inversion Hall as [|? ? Hhd Htl]; subst. split.
    + constructor; [lia|]. constructor; [lia | exact Htl].
    + destruct Hin as [Hin|Hin]; [|now right; right].
      rewrite <- Hin. destruct (Z.min_spec t a) as [[_ ->]|[_ ->]]; auto.
Qed.

Lemma fold_left_max_spec (ts : list Z) (t : Z) :
  Forall (fun x => x <= fold_left Z.max ts t) (t :: ts) /\
  In (fold_left Z.max ts t) (t :: ts).
Proof.
  revert t. induction ts as [|a r IH]; intros t; simpl.
  - split; [repeat constructor; lia | now left].
  - destruct (IH (Z.max t a)) as [Hall Hin].
    inversion Hall as [|? ? Hhd Htl]; subst. split.
    + constructor; [lia|]. constructor; [lia | exact Htl].
    + destruct Hin as [Hin|Hin]; [|now right; right].
      rewrite <- Hin. destruct (Z.max_spec t a) as [[_ ->]|[_ ->]]; auto.
Qed.

Lemma min_date_spec (workspace_df : list Workspace.t) (mn : Z) :
  min_date workspace_df = Some mn ->
  (forall r, In r workspace_df -> mn <= dt_date (Workspace.date r)) /\
  (exists r, In r workspace_df /\ dt_date (Workspace.date r) = mn).
Proof.
  unfold min_date. destruct (map Workspace.date workspace_df) as [|t ts] eqn:E;
    [discriminate|]. intros [= <-].
  destruct (fold_left_min_spec ts t) as [Hall Hin]. rewrite <- E in Hall, Hin. split.
  - intros r Hr. apply dt_date_mono. rewrite Forall_forall in Hall.
    apply Hall. now apply in_map.
  - apply in_map_iff in Hin. destruct Hin as [r [Hr Hin]].
    exists r. split; [exact Hin | now rewrite Hr].
Qed.

Lemma max_date_spec (workspace_df : list Workspace.t) (mx : Z) :
  max_date workspace_df = Some mx ->
  (forall r, In r workspace_df -> dt_date (Workspace.date r) <= mx) /\
  (exists r, In r workspace_df /\ dt_date (Workspace.date r) = mx).
Proof.
  unfold max_date. destruct (map Workspace.date workspace_df) as [|t ts] eqn:E;
    [discriminate|]. intros [= <-].
  destruct (fold_left_max_spec ts t) as [Hall Hin]. rewrite <- E in Hall, Hin. split.
  - intros r Hr. apply dt_date_mono. rewrite Forall_forall in Hall.
    apply Hall. now apply in_map.
  - apply in_map_iff in Hin. destruct Hin as [r [Hr Hin]].
    exists r. split; [exact Hin | now rewrite Hr].
Qed.

(** C6: a bare date and a one-element sequence both give [start = end = d];
    a two-element sequence is taken as it is; a sequence of any other length
    gives the pair of the least and the greatest day of the workspace
    frame. *)
Theorem normalize_date_range_spec (workspace_df : list Workspace.t) (mn mx : Z)
    (Hmin : min_date workspace_df = Some mn)
    (Hmax : max_date workspace_df = Some mx) :
  (forall d, normalize_date_range mn mx (DateSingle d) = (d, d)) /\
  (forall d, normalize_date_range mn mx (DateSeq [d]) = (d, d)) /\
  (forall a b, normalize_date_range mn mx (DateSeq [a; b]) = (a, b)) /\
  (forall ds, (List.length ds = 0 \/ 2 < List.length ds)%nat ->
              normalize_date_range mn mx (DateSeq ds) = (mn, mx)) /\
  (forall r, In r workspace_df -> mn <= dt_date (Workspace.date r) <= mx) /\
  (exists r, In r workspace_df /\ dt_date (Workspace.date r) = mn) /\
  (exists r, In r workspace_df /\ dt_date (Workspace.date r) = mx).
Proof.
  destruct (min_date_spec _ _ Hmin) as [Hle Hex].
  destruct (max_date_spec _ _ Hmax) as [Hge Hex'].
  repeat split; auto.
  intros ds Hlen. destruct ds as [|a [|b [|c t]]]; simpl in *; try reflexivity; lia.
Qed.

(* ------------------------------------------------------------------ *)
(** *** Normalisation of the member frame *)

Lemma str_replace_comma_chars (s : string) :
  list_ascii_of_string (str_replace_comma s) =
  filter (fun c => negb (is_comma c)) (list_ascii_of_string s).
Proof.
  induction s as [|c r IH]; simpl; [reflexivity|].
  unfold is_comma at 1. destruct (Ascii.eqb c ","); simpl; [exact IH | now rewrite IH].
Qed.

Lemma fillna0_present (x : number) : fillna0 x <> NaN.
Proof. destruct x; discriminate. Qed.

(** C3, as the code has it: a [messages_posted] value read as text loses
    every comma before it is coerced; a [days_active] value read as text is
    coerced as it stands; a value that does not coerce becomes 0; neither
    normalised column holds a missing value. *)
Theorem load_member_numeric_fields (parse : string -> number) :
  (forall dd (r : RawMember object dd) s,
      raw_messages_posted r = Some s ->
      Member.messages_posted (load_member parse r)
        = fillna0 (parse (str_replace_comma s)) /\
      list_ascii_of_string (str_replace_comma s)
        = filter (fun c => negb (is_comma c)) (list_ascii_of_string s)) /\
  (forall dm (r : RawMember dm object) s,
      raw_days_active r = Some s ->
      Member.days_active (load_member parse r) = fillna0 (parse s)) /\
  (forall dm dd (r : RawMember dm dd),
      (coerce_messages parse r = NaN ->
       Member.messages_posted (load_member parse r) = Num 0) /\
      (coerce_days parse r = NaN ->
       Member.days_active (load_member parse r) = Num 0)) /\
  (forall dm dd (member_df : list (RawMember dm dd)) channel_df workspace_df,
      Forall (fun m => Member.messages_posted m <> NaN /\ Member.days_active m <> NaN)
             (fst (fst (load_data parse member_df channel_df workspace_df)))).
Proof.
  split; [|split; [|split]].
  - intros dd r s Hs. split; [|apply str_replace_comma_chars].
    unfold load_member, coerce_messages. simpl. now rewrite Hs.
  - intros dm r s Hs. unfold load_member, coerce_days. simpl. now rewrite Hs.
  - intros dm dd r. unfold load_member. simpl. split; intros ->; reflexivity.
  - intros dm dd member_df channel_df workspace_df. simpl.
    apply Forall_map, Forall_forall. intros r _. unfold load_member. simpl.
    split; apply fillna0_present.
Qed.

(** C4: when the cells that are present are not the empty string, as
    [pd.read_csv] leaves them, the normalised [display_name] is the first
    non-empty value of the chain display name, raw name, "Unknown Member",
    and it is never the empty string. *)
Theorem display_name_resolution (parse : string -> number) (dm dd : dtype)
    (r : RawMember dm dd)
    (Hdisplay : raw_display_name r <> Some "")
    (Hname : raw_name r <> Some "") :
  Member.display_name (load_member parse r)
    = Some (first_non_empty [raw_display_name r; raw_name r] "Unknown Member") /\
  first_non_empty [raw_display_name r; raw_name r] "Unknown Member" <> "".
Proof.
  unfold load_member, resolve_display_name, fillna. simpl.
  destruct (raw_display_name r) as [[|c s]|]; [congruence | split; [reflexivity|discriminate] |].
  destruct (raw_name r) as [[|c s]|]; [congruence | |]; split; try reflexivity; discriminate.
Qed.

Lemma non_negative_fillna0 (x : number) :
  non_negative (fillna0 x) <-> missing_or_non_negative x.
Proof.
  destruct x as [q|]; simpl; [reflexivity|].
  split; intros _; [exact I | apply Qle_refl].
Qed.

Lemma filter_fixed_iff {A : Type} (f : A -> bool) (l : list A) :
  filter f l = l <-> Forall (fun x => f x = true) l.
Proof.
  split.
  - induction l as [|a t IH]; simpl; intros E; [constructor|].
    destruct (f a) eqn:Fa.
    + injection E as E. constructor; [exact Fa | apply IH, E].
    + exfalso. pose proof (filter_length_le f t) as Hlen.
      rewrite E in Hlen. simpl in Hlen. lia.
  - induction 1 as [|a t Fa _ IH]; simpl; [reflexivity|].
    now rewrite Fa, IH.
Qed.

Lemma num_geb_zero (x : number) :
  num_geb x (inject_Z 0) = true <-> non_negative x.
Proof.
  destruct x as [q|]; simpl; [apply Qle_bool_iff|].
  split; [discriminate | contradiction].
Qed.

(** C7, as the code has it: the threshold 0 returns the member frame
    unchanged exactly when no [messages_posted] value of the frame is
    negative or missing; a frame produced by [load_data] has no missing
    value, so there the zero threshold is the identity exactly when no value
    is negative. *)
Theorem filtered_member_df_zero (member_df : list Member.t) :
  filtered_member_df member_df 0 = member_df <->
  Forall (fun m => non_negative (Member.messages_posted m)) member_df.
Proof.
  unfold filtered_member_df. rewrite filter_fixed_iff.
  split; intros H; (eapply Forall_impl; [|exact H]); intros m Hm;
    now apply num_geb_zero.
Qed.

(** C8, as the code has it: the two normalised member columns are
    non-negative exactly when no source value coerces to a negative number
    (a value that does not coerce becomes 0); the channel and the workspace
    frame are returned as they were read. *)
Theorem load_data_non_negative (parse : string -> number) (dm dd : dtype)
    (member_df : list (RawMember dm dd)) (channel_df : list Channel.t)
    (workspace_df : list Workspace.t) :
  (Forall (fun m => non_negative (Member.messages_posted m) /\
                    non_negative (Member.days_active m))
          (fst (fst (load_data parse member_df channel_df workspace_df))) <->
   Forall (fun r => missing_or_non_negative (coerce_messages parse r) /\
                    missing_or_non_negative (coerce_days parse r))
          member_df) /\
  snd (fst (load_data parse member_df channel_df workspace_df)) = channel_df /\
  snd (load_data parse member_df channel_df workspace_df) = workspace_df.
Proof.
  split; [|split; reflexivity].
  simpl. rewrite Forall_map.
  split; intros H; (eapply Forall_impl; [|exact H]); intros r [Hm Hd];
    unfold load_member in *; simpl in *; split; now apply non_negative_fillna0.
Qed.

(* ------------------------------------------------------------------ *)
(** *** The statements at concrete inputs *)

(** The classifier on both sides of each boundary. *)
Example get_retention_group_boundaries :
  map get_retention_group [Num 0; Num 5; Num 6; Num 15; Num 16; Num 30; Num 31]
  = ["0-5 days"; "0-5 days"; "6-15 days"; "6-15 days"; "16-30 days";
     "16-30 days"; "30+ days"].
Proof. reflexivity. Qed.

(** The single-snapshot example of the specification. *)
Example single_snapshot_metrics :
  exists m,
    dashboard_metrics [] [] [Workspace.mk (day_ts 19723) (Num 10) (Num 100) (Num (1 # 5)) (Num 50)]
      (DateSingle 19723) 0 = Some m /\
    peak_daily_active m = Num 10 /\ latest_enabled_members m = Num 50 /\
    avg_daily_active m = Num 10.
Proof. eexists. split; [reflexivity|]. repeat split; reflexivity. Qed.

(** A day between the two snapshots of the sample selects no row: the script
    runs on, and the means of the period are [NaN]. *)
Example gap_day_metrics :
  exists m,
    dashboard_metrics (map (load_member parse_decimal) sample_member_df)
      sample_channel_df sample_workspace_df (DateSingle 19724) 0 = Some m /\
    avg_daily_active m = NaN /\ avg_messages_per_day m = NaN /\
    avg_engagement_ratio m = NaN /\ latest_enabled_members m = Num 0.
Proof. eexists. split; [reflexivity|]. repeat split; reflexivity. Qed.

Lemma get_retention_group_partition_witness :
  0 <= 15 /\ get_retention_group (Num (inject_Z 15)) = "6-15 days".
Proof.
  assert (H : 0 <= 15) by lia.
  split; [exact H|].
  destruct (get_retention_group_partition 15 H) as (_ & _ & H6 & _).
  apply H6. lia.
Defined.

Lemma get_retention_group_negative_witness :
  (-3 < 0)%Q /\ get_retention_group (Num (-3)) = "0-5 days".
Proof.
  assert (H : (-3 < 0)%Q) by reflexivity.
  split; [exact H|].
  apply (proj1 (get_retention_group_negative (-3) H)).
Defined.

Lemma normalize_date_range_spec_witness :
  min_date sample_workspace_df = Some 19723 /\
  max_date sample_workspace_df = Some 19725 /\
  normalize_date_range 19723 19725 (DateSeq [19723; 19724; 19725]) = (19723, 19725).
Proof.
  assert (Hmin : min_date sample_workspace_df = Some 19723) by reflexivity.
  assert (Hmax : max_date sample_workspace_df = Some 19725) by reflexivity.
  split; [exact Hmin|]. split; [exact Hmax|].
  destruct (normalize_date_range_spec sample_workspace_df 19723 19725 Hmin Hmax)
    as (_ & _ & _ & Hother & _).
  apply Hother. right. simpl. lia.
Defined.

Lemma display_name_resolution_witness :
  Member.display_name
    (load_member parse_decimal
       (@mkRawMember object object "U2" (Some "bob") None (Some "0") (Some "40") (Num 0)))
  = Some "bob".
Proof.
  apply (display_name_resolution parse_decimal object object
           (@mkRawMember object object "U2" (Some "bob") None (Some "0") (Some "40") (Num 0)));
    simpl; discriminate.
Defined.

(** C3, refuted as stated: a [days_active] value written with a grouping
    separator is not stripped; it fails coercion and becomes 0, where the
    stripped text reads as 1200. *)
Lemma days_active_separator_not_stripped :
  raw_days_active separator_member = Some "1,200" /\
  Member.days_active (load_member parse_decimal separator_member) = Num 0 /\
  fillna0 (parse_decimal (str_replace_comma "1,200")) = Num 1200 /\
  Member.messages_posted (load_member parse_decimal separator_member) = Num 1200.
Proof. repeat split; reflexivity. Qed.

(** C7, refuted as stated: the member U2 of the loaded frame has
    [messages_posted = -5] and is dropped by the threshold 0. *)
Lemma zero_threshold_drops_member :
  In "U2" (map Member.user_id
             (fst (fst (load_data parse_decimal negative_member_df [] [])))) /\
  ~ In "U2" (map Member.user_id
               (filtered_member_df
                  (fst (fst (load_data parse_decimal negative_member_df [] []))) 0)).
Proof.
  split; [simpl; auto|].
  simpl. intros [H|[]]. discriminate H.
Qed.

(** C8, refuted as stated: a negative source value is still negative after
    [load_data]. *)
Lemma load_data_keeps_negative :
  map Member.days_active
      (fst (fst (load_data parse_decimal negative_member_df [] [])))
    = [Num 3; Num (-3)] /\
  ~ Forall (fun m => non_negative (Member.messages_posted m) /\
                     non_negative (Member.days_active m))
           (fst (fst (load_data parse_decimal negative_member_df [] []))).
Proof.
  split; [reflexivity|].
  intros H. inversion H as [|? ? _ Ht]; subst.
  inversion Ht as [|? ? [Hm _] _]; subst.
  simpl in Hm. apply Qle_bool_iff in Hm. discriminate Hm.
Qed.

(* ================================================================== *)
(** ** Further properties of the code *)

(* ------------------------------------------------------------------ *)
(** *** The classifier on every number *)

Lemma Qle_bool_false_lt (x y : Q) : Qle_bool x y = false <-> (y < x)%Q.
Proof.
  unfold Qle_bool, Qlt. apply Z.leb_gt.
Qed.

(** X1: on every rational number of days, integer or not, the classifier
    answers one of the four labels; a value strictly between two buckets of
    the specification (5.5, say) goes to the upper one: the groups are
    [q <= 5], [5 < q <= 15], [15 < q <= 30] and [30 < q]. *)
Theorem get_retention_group_rational (q : Q) :
  In (get_retention_group (Num q)) retention_groups /\
  (get_retention_group (Num q) = "0-5 days" <-> (q <= 5)%Q) /\
  (get_retention_group (Num q) = "6-15 days" <-> (5 < q /\ q <= 15)%Q) /\
  (get_retention_group (Num q) = "16-30 days" <-> (15 < q /\ q <= 30)%Q) /\
  (get_retention_group (Num q) = "30+ days" <-> (30 < q)%Q).
Proof.
  unfold get_retention_group, num_leb, retention_groups.
  destruct (Qle_bool q 5) eqn:E5;
    [apply Qle_bool_iff in E5 | apply Qle_bool_false_lt in E5];
  (destruct (Qle_bool q 15) eqn:E15;
    [apply Qle_bool_iff in E15 | apply Qle_bool_false_lt in E15]);
  (destruct (Qle_bool q 30) eqn:E30;
    [apply Qle_bool_iff in E30 | apply Qle_bool_false_lt in E30]);
  (split; [simpl; tauto|]);
  destruct q as [n d]; unfold Qle, Qlt in *; simpl in *;
  repeat split; intros; try discriminate; try reflexivity; lia.
Qed.

(* ------------------------------------------------------------------ *)
(** *** Stripping the grouping separators *)

Lemma str_replace_comma_fixed (s : string) :
  str_replace_comma s = s <-> ~ In ","%char (list_ascii_of_string s).
Proof.
  induction s as [|c r IH]; simpl; [tauto|].
  destruct (Ascii.eqb_spec c ",") as [->|Hc].
  - split; [|tauto]. intros E. exfalso.
    assert (Hlen : String.length (str_replace_comma r) = S (String.length r))
      by now rewrite E.
    assert (Hle : forall t, (String.length (str_replace_comma t) <= String.length t)%nat).
    { induction t as [|c' t' IHt]; simpl; [lia|].
      destruct (Ascii.eqb c' ","); simpl; lia. }
    specialize (Hle r). lia.
  - split.
    + intros [= E] [Hin|Hin]; [congruence | now apply IH].
    + intros Hnot. f_equal. apply IH. tauto.
Qed.

(** X2: the text left by the comma stripping of [load_data] holds no comma;
    the stripping changes a text exactly when the text holds a comma, and
    doing it twice is doing it once.  So a [messages_posted] read as text
    without separators is coerced from the text as it was written. *)
Theorem str_replace_comma_spec (s : string) :
  ~ In ","%char (list_ascii_of_string (str_replace_comma s)) /\
  (str_replace_comma s = s <-> ~ In ","%char (list_ascii_of_string s)) /\
  str_replace_comma (str_replace_comma s) = str_replace_comma s /\
  (forall parse dd (r : RawMember object dd),
      raw_messages_posted r = Some s ->
      ~ In ","%char (list_ascii_of_string s) ->
      Member.messages_posted (load_member parse r) = fillna0 (parse s)).
Proof.
  assert (Hno : ~ In ","%char (list_ascii_of_string (str_replace_comma s))).
  { rewrite str_replace_comma_chars, filter_In. unfold is_comma.
    intros [_ H]. discriminate H. }
  split; [exact Hno|]. split; [apply str_replace_comma_fixed|].
  split; [now apply str_replace_comma_fixed|].
  intros parse dd r Hs Hnot. unfold load_member, coerce_messages. simpl.
  rewrite Hs. simpl. f_equal. f_equal. now apply str_replace_comma_fixed.
Qed.

(* ------------------------------------------------------------------ *)
(** *** The date filter *)





Lemma filter_filter {A : Type} (f g : A -> bool) (l : list A) :
  filter f (filter g l) = filter (fun x => g x && f x) l.
Proof.
  induction l as [|a t IH]; simpl; [reflexivity|].
  destruct (g a); simpl; [|exact IH]. destruct (f a); now rewrite IH.
Qed.


(** X4: a range whose start lies after its end selects no row. *)
Theorem filtered_workspace_df_inverted (workspace_df : list Workspace.t)
    (start_date end_date : Z) (H : end_date < start_date) :
  filtered_workspace_df workspace_df start_date end_date = [].
Proof.
  unfold filtered_workspace_df. rewrite filter_none; [reflexivity|].
  intros r _. destruct (mask start_date end_date r) eqn:E; [|reflexivity].
  apply mask_spec in E. lia.
Qed.



(* ------------------------------------------------------------------ *)
(** *** The message threshold *)

Lemma num_geb_max (x : number) (a b : Z) :
  num_geb x (inject_Z (Z.max a b)) = num_geb x (inject_Z a) && num_geb x (inject_Z b).
Proof.
  destruct x as [[n d]|]; simpl; [|reflexivity].
  apply eq_true_iff_eq. rewrite andb_true_iff. unfold Qle_bool. simpl.
  rewrite !Z.leb_le. destruct (Z.max_spec a b) as [[Hab ->]|[Hab ->]]; nia.
Qed.

(** X6: applying the threshold [a] and then the threshold [b] is applying
    the larger of the two; so a higher threshold keeps a part of what a lower
    one keeps, and the filter applied twice is the filter applied once. *)
Theorem filtered_member_df_compose (member_df : list Member.t) (a b : Z) :
  filtered_member_df (filtered_member_df member_df a) b
    = filtered_member_df member_df (Z.max a b) /\
  (a <= b -> incl (filtered_member_df member_df b) (filtered_member_df member_df a)) /\
  incl (filtered_member_df member_df a) member_df.
Proof.
  assert (Hc : forall a b,
    filtered_member_df (filtered_member_df member_df a) b
    = filtered_member_df member_df (Z.max a b)).
  { intros x y. unfold filtered_member_df. rewrite filter_filter.
    apply filter_ext. intros m. now rewrite num_geb_max. }
  split; [apply Hc|]. split.
  - intros Hab m Hm. rewrite <- (Z.max_r a b Hab), <- Hc in Hm.
    unfold filtered_member_df at 1 in Hm. apply filter_In in Hm. tauto.
  - intros m Hm. unfold filtered_member_df in Hm. apply filter_In in Hm. tauto.
Qed.

Lemma Qmax_cases (x y : Q) : Qmax x y = x \/ Qmax x y = y.
Proof.
  unfold Qmax, GenericMinMax.gmax. destruct (x ?= y)%Q; auto.
Qed.

Lemma fold_left_Qmax_spec (r : list Q) (q : Q) :
  Forall (fun x => (x <= fold_left Qmax r q)%Q) (q :: r) /\
  In (fold_left Qmax r q) (q :: r).
Proof.
  revert q. induction r as [|a r IH]; intros q; simpl.
  - split; [repeat constructor; apply Qle_refl | now left].
  - destruct (IH (Qmax q a)) as [Hall Hin].
    inversion Hall as [|? ? Hhd Htl]; subst. split.
    + constructor; [eapply Qle_trans; [apply Q.le_max_l | exact Hhd]|].
      constructor; [eapply Qle_trans; [apply Q.le_max_r | exact Hhd] | exact Htl].
    + destruct Hin as [Hin|Hin]; [|now right; right].
      rewrite <- Hin. destruct (Qmax_cases q a) as [->| ->]; auto.
Qed.

Lemma in_dropna (xs : list number) (q : Q) : In q (dropna xs) <-> In (Num q) xs.
Proof.
  induction xs as [|[p|] r IH]; simpl.
  - tauto.
  - rewrite IH. split; intros [H|H]; auto; left; congruence.
  - rewrite IH. split; [auto | intros [H|H]; [discriminate | exact H]].
Qed.

Lemma series_max_spec (xs : list number) (q : Q) :
  series_max xs = Num q ->
  In (Num q) xs /\ forall p, In (Num p) xs -> (p <= q)%Q.
Proof.
  unfold series_max. destruct (dropna xs) as [|a r] eqn:E; [discriminate|].
  intros [= <-]. destruct (fold_left_Qmax_spec r a) as [Hall Hin].
  rewrite <- E in Hall, Hin. split; [now apply in_dropna|].
  intros p Hp. apply in_dropna in Hp. rewrite Forall_forall in Hall. now apply Hall.
Qed.

Lemma quot_positive_le (n : Z) (d : positive) (m : Z) :
  Z.quot n (Zpos d) = m -> 0 < m -> m * Zpos d <= n.
Proof.
  intros Hq Hm.
  assert (Hn : 0 <= n).
  { destruct (Z.lt_ge_cases n 0) as [Hneg|]; [|assumption].
    pose proof (Z.quot_le_mono n 0 (Zpos d) ltac:(lia) ltac:(lia)) as H.
    rewrite Z.quot_0_l in H by lia. lia. }
  rewrite Z.quot_div_nonneg in Hq by lia.
  pose proof (Z.mul_div_le n (Zpos d) ltac:(lia)) as H. rewrite Hq in H. lia.
Qed.

(** X7: when the slider of line 212 has a positive upper end
    [int(max messages_posted)], no position [min_messages] up to that end
    empties the member frame: a member holding the largest count is kept. *)
Theorem slider_keeps_a_member (member_df : list Member.t) (upper min_messages : Z)
    (Hupper : slider_max member_df = Some upper)
    (Hpos : 0 < upper)
    (Hrange : min_messages <= upper) :
  exists m,
    In m (filtered_member_df member_df min_messages) /\
    series_max (map Member.messages_posted member_df) = Member.messages_posted m.
Proof.
  unfold slider_max in Hupper.
  destruct (series_max (map Member.messages_posted member_df)) as [q|] eqn:E;
    [|discriminate].
  simpl in Hupper. injection Hupper as Hq.
  destruct (series_max_spec _ _ E) as [Hin _].
  apply in_map_iff in Hin. destruct Hin as [m [Hm Hin]].
  exists m. split; [|now rewrite Hm].
  unfold filtered_member_df. apply filter_In. split; [exact Hin|].
  rewrite Hm. simpl. apply Qle_bool_iff. destruct q as [n d].
  unfold Qle. simpl in *. pose proof (quot_positive_le n d upper Hq Hpos). nia.
Qed.

(* ------------------------------------------------------------------ *)
(** *** The stable sort of the chart tables *)

Section SortBy.
Context {A : Type} (before : A -> A -> bool).

Lemma insert_by_perm (x : A) (l : list A) :
  Permutation (insert_by before x l) (x :: l).
Proof.
  induction l as [|y t IH]; simpl; [apply Permutation_refl|].
  destruct (before x y); [apply Permutation_refl|].
  eapply perm_trans; [apply perm_skip, IH | apply perm_swap].
Qed.

Lemma sort_by_perm (l : list A) : Permutation (sort_by before l) l.
Proof.
  induction l as [|x t IH]; simpl; [constructor|].
  eapply perm_trans; [apply insert_by_perm | apply perm_skip, IH].
Qed.

Hypothesis before_total : forall a b, before a b = true \/ before b a = true.
Hypothesis before_trans :
  forall a b c, before a b = true -> before b c = true -> before a c = true.

Lemma insert_by_sorted (x : A) (l : list A) :
  StronglySorted (fun a b => before a b = true) l ->
  StronglySorted (fun a b => before a b = true) (insert_by before x l).
Proof.
  induction 1 as [|y t Ht IH Hy]; simpl; [repeat constructor|].
  destruct (before x y) eqn:E.
  - constructor; [now constructor|].
    constructor; [exact E|].
    eapply Forall_impl; [|exact Hy]. intros z Hz. now apply (before_trans x y z).
  - constructor; [exact IH|].
    eapply Permutation_Forall; [apply Permutation_sym, insert_by_perm|].
    constructor; [|exact Hy].
    destruct (before_total x y) as [H|H]; [congruence | exact H].
Qed.

Lemma sort_by_sorted (l : list A) :
  StronglySorted (fun a b => before a b = true) (sort_by before l).
Proof.
  induction l as [|x t IH]; simpl; [constructor | now apply insert_by_sorted].
Qed.
End SortBy.

Lemma StronglySorted_app_inv {A : Type} (R : A -> A -> Prop) (l1 l2 : list A) :
  StronglySorted R (l1 ++ l2) ->
  StronglySorted R l1 /\ StronglySorted R l2 /\
  (forall x y, In x l1 -> In y l2 -> R x y).
Proof.
  induction l1 as [|a t IH]; simpl; intros Hs.
  - split; [constructor|]. split; [exact Hs|]. intros x y [].
  - inversion Hs as [|? ? Ht Ha]; subst.
    destruct (IH Ht) as (H1 & H2 & H12). rewrite Forall_app in Ha.
    destruct Ha as [Ha1 Ha2]. split; [now constructor|]. split; [exact H2|].
    intros x y [<-|Hx] Hy; [|now apply H12].
    rewrite Forall_forall in Ha2. now apply Ha2.
Qed.

Lemma num_desc_total (a b : number) : num_desc a b = true \/ num_desc b a = true.
Proof.
  destruct a as [x|], b as [y|]; simpl; auto.
  destruct (Qle_bool y x) eqn:E; [now left|]. right.
  apply Qle_bool_false_lt in E. apply Qle_bool_iff. now apply Qlt_le_weak.
Qed.

Lemma num_desc_trans (a b c : number) :
  num_desc a b = true -> num_desc b c = true -> num_desc a c = true.
Proof.
  destruct a as [x|], b as [y|], c as [z|]; simpl; try congruence.
  rewrite !Qle_bool_iff. intros Hyx Hzy. eapply Qle_trans; eassumption.
Qed.

(** X8: [nlargest n] returns [min n (len df)] rows of the frame, in
    descending order of the column, and no row it leaves out has a larger
    value than a row it returns; the "Top 20" table has at most 20 rows. *)
Theorem nlargest_spec {A : Type} (n : nat) (key : A -> number) (df : list A) :
  List.length (nlargest n key df) = Nat.min n (List.length df) /\
  StronglySorted (fun a b => num_desc (key a) (key b) = true) (nlargest n key df) /\
  (exists rest,
      Permutation df (nlargest n key df ++ rest) /\
      forall x y, In x (nlargest n key df) -> In y rest ->
                  num_desc (key x) (key y) = true) /\
  (forall member_df, (List.length (top_members member_df) <= 20)%nat).
Proof.
  pose proof (sort_by_sorted (fun a b => num_desc (key a) (key b))
                (fun a b => num_desc_total (key a) (key b))
                (fun a b c => num_desc_trans (key a) (key b) (key c)) df) as Hs.
  pose proof (sort_by_perm (fun a b => num_desc (key a) (key b)) df) as Hp.
  unfold nlargest.
  remember (sort_by (fun a b => num_desc (key a) (key b)) df) as sorted eqn:Es.
  rewrite <- (firstn_skipn n sorted) in Hs.
  destruct (StronglySorted_app_inv _ _ _ Hs) as (H1 & _ & H12).
  split; [rewrite length_firstn; now rewrite (Permutation_length Hp)|].
  split; [exact H1|]. split.
  - exists (skipn n sorted). split; [|exact H12].
    rewrite firstn_skipn. now apply Permutation_sym.
  - intros member_df. unfold top_members, nlargest.
    rewrite length_map, length_firstn. lia.
Qed.

(* ------------------------------------------------------------------ *)
(** *** The retention table of the pie chart *)

Lemma remove_NoDup (x : string) (l : list string) :
  NoDup l -> NoDup (remove string_dec x l).
Proof.
  induction 1 as [|a t Ha Ht IH]; simpl; [constructor|].
  destruct (string_dec x a); [exact IH|].
  constructor; [|exact IH]. intros Hin. apply in_remove in Hin. tauto.
Qed.

Lemma unique_In (col : list string) (x : string) : In x (unique col) <-> In x col.
Proof.
  induction col as [|a t IH]; simpl; [tauto|].
  split.
  - intros [->|Hin]; [now left|]. apply in_remove in Hin. right. apply IH. tauto.
  - intros [->|Hin]; [now left|].
    destruct (string_dec a x) as [->|Hne]; [now left|].
    right. apply in_in_remove; [congruence | now apply IH].
Qed.

Lemma unique_NoDup (col : list string) : NoDup (unique col).
Proof.
  induction col as [|a t IH]; simpl; constructor.
  - apply remove_In.
  - now apply remove_NoDup.
Qed.

Lemma list_sum_permutation (l l' : list nat) :
  Permutation l l' -> list_sum l = list_sum l'.
Proof.
  induction 1; simpl; lia.
Qed.

Lemma list_sum_map_add {A : Type} (f g : A -> nat) (u : list A) :
  list_sum (map (fun v => (f v + g v)%nat) u)
  = (list_sum (map f u) + list_sum (map g u))%nat.
Proof.
  induction u as [|a t IH]; simpl; lia.
Qed.

Lemma list_sum_indicator (a : string) (u : list string) :
  NoDup u ->
  list_sum (map (fun v => if string_dec a v then 1%nat else 0%nat) u)
  = if in_dec string_dec a u then 1%nat else 0%nat.
Proof.
  induction 1 as [|b t Hb Ht IH]; simpl; [reflexivity|].
  rewrite IH. destruct (string_dec b a) as [->|Hne].
  - destruct (string_dec a a); [|congruence].
    destruct (in_dec string_dec a t); [contradiction | reflexivity].
  - destruct (string_dec a b); [congruence|].
    now destruct (in_dec string_dec a t).
Qed.

Lemma count_occ_sum (u col : list string) :
  NoDup u -> incl col u ->
  list_sum (map (count_occ string_dec col) u) = List.length col.
Proof.
  intros Hu. induction col as [|a t IH]; intros Hincl; simpl.
  - clear. induction u as [|b r IHr]; simpl; [reflexivity | exact IHr].
  - rewrite (map_ext _ (fun v => (count_occ string_dec t v +
                                   (if string_dec a v then 1 else 0))%nat)).
    + rewrite list_sum_map_add, IH, list_sum_indicator by
        (try exact Hu; intros x Hx; apply Hincl; now right).
      destruct (in_dec string_dec a u) as [|Hn]; [lia|].
      exfalso. apply Hn, Hincl. now left.
    + intros v. destruct (string_dec a v); lia.
Qed.

Lemma count_desc_total (a b : string * nat) :
  Nat.leb (snd b) (snd a) = true \/ Nat.leb (snd a) (snd b) = true.
Proof. rewrite !Nat.leb_le. lia. Qed.

Lemma count_desc_trans (a b c : string * nat) :
  Nat.leb (snd b) (snd a) = true -> Nat.leb (snd c) (snd b) = true ->
  Nat.leb (snd c) (snd a) = true.
Proof. rewrite !Nat.leb_le. lia. Qed.

Lemma value_counts_perm (col : list string) :
  Permutation (value_counts col)
              (map (fun v => (v, count_occ string_dec col v)) (unique col)).
Proof. apply sort_by_perm. Qed.

Lemma value_counts_labels (col : list string) :
  NoDup (map fst (value_counts col)) /\
  (forall v, In v (map fst (value_counts col)) <-> In v col).
Proof.
  pose proof (value_counts_perm col) as Hp.
  assert (Hfst : Permutation (map fst (value_counts col)) (unique col)).
  { eapply perm_trans; [apply Permutation_map, Hp|].
    rewrite map_map. simpl. rewrite map_id. apply Permutation_refl. }
  split; [eapply Permutation_NoDup; [apply Permutation_sym, Hfst | apply unique_NoDup]|].
  intros v. split; intros H.
  - apply unique_In. eapply Permutation_in; [exact Hfst | exact H].
  - apply unique_In in H.
    eapply Permutation_in; [apply Permutation_sym, Hfst | exact H].
Qed.

Lemma value_counts_sum (col : list string) :
  list_sum (map snd (value_counts col)) = List.length col.
Proof.
  rewrite (list_sum_permutation _ _ (Permutation_map snd (value_counts_perm col))).
  rewrite map_map. simpl. apply count_occ_sum; [apply unique_NoDup|].
  intros x Hx. now apply unique_In.
Qed.

(** X9: [value_counts] lists every value of the column once, each with the
    number of rows that hold it (never 0), the larger counts first, and the
    counts add up to the number of rows. *)
Theorem value_counts_spec (col : list string) :
  NoDup (map fst (value_counts col)) /\
  (forall v, In v (map fst (value_counts col)) <-> In v col) /\
  (forall v c, In (v, c) (value_counts col) ->
               c = count_occ string_dec col v /\ (0 < c)%nat) /\
  StronglySorted (fun a b => (snd b <= snd a)%nat) (value_counts col) /\
  list_sum (map snd (value_counts col)) = List.length col.
Proof.
  destruct (value_counts_labels col) as [Hnd Hin].
  split; [exact Hnd|]. split; [exact Hin|]. split.
  { intros v c Hvc. eapply Permutation_in in Hvc; [|apply value_counts_perm].
    apply in_map_iff in Hvc. destruct Hvc as [w [[= <- <-] Hw]].
    split; [reflexivity|]. apply count_occ_In. now apply unique_In. }
  split; [|apply value_counts_sum].
  eapply StronglySorted_weaken;
    [|apply (sort_by_sorted _ count_desc_total count_desc_trans)].
  intros a b. apply Nat.leb_le.
Qed.

Lemma get_retention_group_label (days : number) :
  In (get_retention_group days) retention_groups.
Proof.
  unfold get_retention_group, retention_groups.
  destruct (num_leb days 5), (num_leb days 15), (num_leb days 30); simpl; tauto.
Qed.

(** X10: for the members loaded by [load_data] and kept by the threshold,
    the pie chart has at most four slices, each one of the four retention
    groups, and the slices add up to the number of members kept. *)
Theorem retention_counts_loaded (parse : string -> number) (dm dd : dtype)
    (member_df : list (RawMember dm dd)) (min_messages : Z) :
  (List.length (retention_counts
      (filtered_member_df (map (load_member parse) member_df) min_messages)) <= 4)%nat /\
  (forall v c,
      In (v, c) (retention_counts
         (filtered_member_df (map (load_member parse) member_df) min_messages)) ->
      In v retention_groups) /\
  list_sum (map snd (retention_counts
      (filtered_member_df (map (load_member parse) member_df) min_messages)))
  = List.length (filtered_member_df (map (load_member parse) member_df) min_messages).
Proof.
  unfold retention_counts.
  remember (filtered_member_df (map (load_member parse) member_df) min_messages)
    as kept eqn:Ek.
  destruct (value_counts_labels (map Member.retention_group kept)) as [Hnd Hin].
  pose proof (value_counts_sum (map Member.retention_group kept)) as Hsum.
  assert (Hlab : forall v, In v (map Member.retention_group kept) ->
                           In v retention_groups).
  { intros v Hv. apply in_map_iff in Hv. destruct Hv as [m [<- Hm]].
    subst kept. unfold filtered_member_df in Hm. apply filter_In in Hm.
    destruct Hm as [Hm _]. apply in_map_iff in Hm. destruct Hm as [r [<- _]].
    unfold load_member. simpl. apply get_retention_group_label. }
  split.
  { rewrite <- (length_map fst).
    change 4%nat with (List.length retention_groups).
    apply (NoDup_incl_length Hnd). intros v Hv. apply Hlab. now apply Hin. }
  split.
  { intros v c Hvc. apply Hlab, Hin. apply in_map_iff. now exists (v, c). }
  rewrite Hsum. apply length_map.
Qed.

(* ------------------------------------------------------------------ *)
(** *** Relations between the metrics *)

Lemma nodup_length_le (ids : list string) :
  (List.length (nodup string_dec ids) <= List.length ids)%nat.
Proof.
  induction ids as [|a t IH]; simpl; [lia|].
  destruct (in_dec string_dec a t); simpl; lia.
Qed.

Lemma share_is_percentage (k n : nat) :
  (k <= n)%nat -> (0 < n)%nat ->
  is_percentage (num_mul (num_div (of_nat k) (of_nat n)) (Num 100)).
Proof.
  intros Hk Hn. unfold of_nat, num_div, num_mul, is_percentage.
  assert (Hn' : (0 < inject_Z (Z.of_nat n))%Q).
  { rewrite <- (Zlt_Qlt 0). lia. }
  assert (Hk0 : (0 <= inject_Z (Z.of_nat k))%Q).
  { rewrite <- (Zle_Qle 0). lia. }
  assert (Hkn : (inject_Z (Z.of_nat k) <= inject_Z (Z.of_nat n))%Q).
  { rewrite <- Zle_Qle. lia. }
  assert (H0 : (0 <= inject_Z (Z.of_nat k) / inject_Z (Z.of_nat n))%Q).
  { apply Qle_shift_div_l; [exact Hn'|]. now rewrite Qmult_0_l. }
  assert (H1 : (inject_Z (Z.of_nat k) / inject_Z (Z.of_nat n) <= 1)%Q).
  { apply Qle_shift_div_r; [exact Hn'|]. now rewrite Qmult_1_l. }
  split.
  - apply Qmult_le_0_compat; [exact H0 | discriminate].
  - setoid_replace 100%Q with (1 * 100)%Q at 2 by ring.
    apply Qmult_le_compat_r; [exact H1 | discriminate].
Qed.

(** X11: [total_members] and [members_with_messages] never exceed the number
    of rows; when the user ids of the member frame are distinct,
    [total_members] is the number of rows and [pct_members_with_messages]
    lies between 0 and 100. *)
Theorem member_share_bounds (member_df : list Member.t) (channel_df : list Channel.t)
    (workspace_df fw : list Workspace.t) (m : Metrics)
    (Hm : calculate_metrics member_df channel_df workspace_df fw = Some m)
    (Hids : NoDup (map Member.user_id member_df)) :
  total_members m = List.length member_df /\
  (members_with_messages m <= total_members m)%nat /\
  is_percentage (pct_members_with_messages m).
Proof.
  unfold calculate_metrics in Hm.
  destruct (guarded_last_total fw) as [v Hv]. rewrite Hv in Hm.
  injection Hm as <-. simpl.
  assert (Ht : count_unique (map Member.user_id member_df) = List.length member_df).
  { unfold count_unique. rewrite (nodup_fixed_point string_dec Hids).
    apply length_map. }
  rewrite Ht.
  pose proof (filter_length_le (fun x => num_gtb (Member.messages_posted x) 0) member_df)
    as Hle.
  split; [reflexivity|]. split; [exact Hle|].
  destruct (Nat.ltb_spec 0 (List.length member_df)) as [Hpos|Hz].
  - now apply share_is_percentage.
  - simpl. split; discriminate.
Qed.

(** The share can pass 100 when a user id occurs on two rows: the rows are
    counted in the numerator, the ids in the denominator. *)
Example duplicate_ids_share :
  exists m,
    calculate_metrics
      [Member.mk "U1" (Some "Ann") (Num 3) (Num 1) (Num 0) "0-5 days";
       Member.mk "U1" (Some "Ann") (Num 4) (Num 2) (Num 0) "0-5 days"] [] [] [] = Some m /\
    num_eq (pct_members_with_messages m) (Num 200).
Proof. eexists. split; [reflexivity|]. reflexivity. Qed.




Lemma series_max_nan_iff {A : Type} (column : A -> number) (rows : list A) :
  series_max (map column rows) = NaN <->
  forall r, In r rows -> column r = NaN.
Proof.
  unfold series_max. split.
  - intros Hnan r Hr.
    destruct (column r) as [p|] eqn:Ep; [|reflexivity].
    assert (Hin : In p (dropna (map column rows))).
    { apply in_dropna. rewrite <- Ep. now apply in_map. }
    destruct (dropna (map column rows)); [destruct Hin | discriminate].
  - intros Hall.
    destruct (dropna (map column rows)) as [|p t] eqn:E; [reflexivity|].
    assert (Hin : In p (dropna (map column rows))) by (rewrite E; now left).
    apply in_dropna, in_map_iff in Hin. destruct Hin as [r [Hr Hin]].
    rewrite (Hall r Hin) in Hr. discriminate.
Qed.


(* ------------------------------------------------------------------ *)
(** *** The two filters in the script *)

Lemma calculate_metrics_parts (member_df : list Member.t) (channel_df : list Channel.t)
    (workspace_df workspace_df' fw fw' : list Workspace.t)
    (member_df' : list Member.t) :
  option_map member_metrics (calculate_metrics member_df channel_df workspace_df fw)
  = option_map member_metrics (calculate_metrics member_df channel_df workspace_df' fw') /\
  option_map channel_metrics (calculate_metrics member_df channel_df workspace_df fw)
  = option_map channel_metrics (calculate_metrics member_df' channel_df workspace_df' fw') /\
  option_map workspace_metrics (calculate_metrics member_df channel_df workspace_df fw)
  = option_map workspace_metrics (calculate_metrics member_df' channel_df workspace_df' fw).
Proof.
  destruct (guarded_last_total fw) as [v Hv].
  destruct (guarded_last_total fw') as [v' Hv'].
  unfold calculate_metrics. rewrite Hv, Hv'. repeat split; reflexivity.
Qed.

(** X13: in the script the two filters do not touch each other's metrics:
    the member metrics do not depend on the date selection, the workspace
    metrics do not depend on the message threshold, and the channel metrics
    depend on neither. *)
Theorem filters_independent (member_df : list Member.t) (channel_df : list Channel.t)
    (workspace_df : list Workspace.t) (date_range date_range' : DateInput)
    (min_messages min_messages' : Z) :
  option_map member_metrics
    (dashboard_metrics member_df channel_df workspace_df date_range min_messages)
  = option_map member_metrics
      (dashboard_metrics member_df channel_df workspace_df date_range' min_messages) /\
  option_map workspace_metrics
    (dashboard_metrics member_df channel_df workspace_df date_range min_messages)
  = option_map workspace_metrics
      (dashboard_metrics member_df channel_df workspace_df date_range min_messages') /\
  option_map channel_metrics
    (dashboard_metrics member_df channel_df workspace_df date_range min_messages)
  = option_map channel_metrics
      (dashboard_metrics member_df channel_df workspace_df date_range' min_messages').
Proof.
  unfold dashboard_metrics.
  destruct (min_date workspace_df) as [mn|]; [|repeat split; reflexivity].
  destruct (max_date workspace_df) as [mx|]; [|repeat split; reflexivity].
  destruct (normalize_date_range mn mx date_range) as [s e].
  destruct (normalize_date_range mn mx date_range') as [s' e'].
  split; [|split].
  - apply (calculate_metrics_parts _ _ _ _ _ _ member_df).
  - apply (calculate_metrics_parts _ channel_df workspace_df workspace_df
             _ (filtered_workspace_df workspace_df s e)
             (filtered_member_df member_df min_messages')).
  - apply calculate_metrics_parts.
Qed.

(** X14: the KPI tiles convert both peaks with [int(...)].  On a view in
    which no row has a [daily_active_people] value, the empty view among
    them, that conversion of [peak_daily_active] fails, and on no other view;
    on the empty view the period total and the latest member count still
    convert, to 0. *)
Theorem peak_conversion_fails (member_df : list Member.t)
    (channel_df : list Channel.t) (workspace_df fw : list Workspace.t) :
  exists m,
    calculate_metrics member_df channel_df workspace_df fw = Some m /\
    (py_int (peak_daily_active m) = None <->
     forall r, In r fw -> Workspace.daily_active_people r = NaN) /\
    (fw = [] ->
     py_int (peak_daily_active m) = None /\
     py_int (peak_messages_per_day m) = None /\
     py_int (total_messages_period m) = Some 0 /\
     py_int (latest_enabled_members m) = Some 0).
Proof.
  destruct (guarded_last_total fw) as [v Hv].
  assert (Hm : calculate_metrics member_df channel_df workspace_df fw
               = calculate_metrics member_df channel_df workspace_df fw) by reflexivity.
  unfold calculate_metrics at 2 in Hm. rewrite Hv in Hm.
  eexists. split; [exact Hm|]. split.
  - rewrite <- (series_max_nan_iff Workspace.daily_active_people fw). simpl.
    destruct (series_max (map Workspace.daily_active_people fw)); simpl;
      split; congruence.
  - intros ->. simpl in Hv. injection Hv as <-. simpl. repeat split; reflexivity.
Qed.

(* ------------------------------------------------------------------ *)
(** *** The period aggregates and the order of the rows *)





(* ------------------------------------------------------------------ *)
(** *** The theme toggle *)

(** X16: a fresh session starts in light mode, a rerun of the script keeps
    the mode it finds, and after [n] clicks on the toggle the dashboard is in
    dark mode exactly when [n] is odd; in both modes the text colour differs
    from the background colour. *)
Theorem theme_after_clicks (n : nat) :
  Nat.iter n toggle_theme (init_dark_mode None) = Nat.odd n /\
  (forall session, init_dark_mode (Some (init_dark_mode session)) = init_dark_mode session) /\
  (forall dark_mode, palette (toggle_theme (toggle_theme dark_mode)) = palette dark_mode) /\
  (forall dark_mode, text_color (palette dark_mode) <> bg_color (palette dark_mode)).
Proof.
  split.
  - induction n as [|k IH]; [reflexivity|].
    change (Nat.iter (S k) toggle_theme (init_dark_mode None))
      with (toggle_theme (Nat.iter k toggle_theme (init_dark_mode None))).
    rewrite IH. unfold toggle_theme. now rewrite Nat.odd_succ, <- Nat.negb_odd.
  - split; [reflexivity|]. split.
    + intros b. unfold toggle_theme. now rewrite negb_involutive.
    + intros [|]; discriminate.
Qed.

(* ------------------------------------------------------------------ *)
(** *** The further properties at concrete inputs *)

Lemma filtered_workspace_df_inverted_witness :
  19723 < 19725 /\ filtered_workspace_df sample_workspace_df 19725 19723 = [].
Proof.
  assert (H : 19723 < 19725) by lia.
  split; [exact H|].
  apply (filtered_workspace_df_inverted sample_workspace_df 19725 19723 H).
Defined.


Lemma slider_keeps_a_member_witness :
  slider_max sample_members = Some 1200 /\
  exists m,
    In m (filtered_member_df sample_members 500) /\
    series_max (map Member.messages_posted sample_members) = Member.messages_posted m.
Proof.
  assert (Hupper : slider_max sample_members = Some 1200) by reflexivity.
  split; [exact Hupper|].
  apply (slider_keeps_a_member sample_members 1200 500 Hupper); lia.
Defined.

Lemma member_share_bounds_witness :
  exists m,
    calculate_metrics sample_members sample_channel_df sample_workspace_df [] = Some m /\
    total_members m = 3%nat /\
    is_percentage (pct_members_with_messages m).
Proof.
  eexists. split; [reflexivity|].
  assert (Hids : NoDup (map Member.user_id sample_members)).
  { simpl. repeat constructor; simpl; intuition discriminate. }
  destruct (member_share_bounds sample_members sample_channel_df sample_workspace_df []
              _ eq_refl Hids) as (Ht & _ & Hp).
  split; [exact Ht | exact Hp].
Defined.


(* ------------------------------------------------------------------ *)
(** *** Averages and totals *)



